(** * bot_webhook: the webhook receiver and the image generation pipeline

    A shallow embedding of [bot_webhook.py].  The handlers of the bot are
    sequential glue code around five outbound calls (text reply, remote
    generation, HTTP download, photo reply, message deletion).  The outbound
    calls are answered by a [World]; every call the program makes is
    appended to a trace, and Python exceptions are an explicit outcome. *)

From Stdlib Require Import ZArith List String Ascii Bool Lia.
From stdpp Require Import base gmap strings.

Open Scope string_scope.
Open Scope list_scope.
Open Scope Z_scope.

(** ** Python values, exceptions and outcomes *)

(** The value [replicate.run] hands back is dynamically typed. *)
#[warnings="-register-all"] Inductive pyval : Type :=
| PyNone
| PyBool (b : bool)
| PyInt (n : Z)
| PyStr (s : string)
| PyList (items : list pyval)
| PyObject (class_name : string).

(** Python truthiness, the test behind [if output]. *)
Definition truthy (v : pyval) : bool :=
  match v with
  | PyNone => false
  | PyBool b => b
  | PyInt n => negb (n =? 0)
  | PyStr s => negb (String.eqb s EmptyString)
  | PyList items => match items with [] => false | _ :: _ => true end
  | PyObject _ => true
  end.

(** The exception classes the handlers tell apart.  [HTTPError] is what
    [raise_for_status] raises and, as every exception of the [requests]
    library, a [RequestException]; [BaseExceptionOnly] stands for the
    classes outside [Exception] (KeyboardInterrupt, CancelledError). *)
Inductive exn : Type :=
| HTTPError (status : Z)
| RequestException (detail : string)
| AttributeError (detail : string)
| IndexError
| OtherException (class_name : string)
| BaseExceptionOnly (class_name : string).

Definition isinstance_RequestException (e : exn) : bool :=
  match e with
  | HTTPError _ | RequestException _ => true
  | _ => false
  end.

Definition isinstance_Exception (e : exn) : bool :=
  match e with
  | BaseExceptionOnly _ => false
  | _ => true
  end.

Inductive outcome (A : Type) : Type :=
| Returned (a : A)
| Raised (e : exn).
Arguments Returned {A} a.
Arguments Raised {A} e.

(** ** Data handed in by the frameworks *)

Record Message : Type := mkMessage {
  text : option string;
  chat_id : Z;
  message_id : Z
}.

Record Update : Type := mkUpdate {
  message : option Message
}.

Record Response : Type := mkResponse {
  status_code : Z;
  content : list Byte.byte
}.

(** ** Process-wide configuration *)

Record Globals : Type := mkGlobals {
  TELEGRAM_BOT_TOKEN : string;
  REPLICATE_API_TOKEN : string;
  WEBHOOK_HOSTNAME : option string
}.

Definition WEBHOOK_URL_PATH : string := "/webhook".

Definition DEEPFLOYD_REPLICATE_MODEL_ID : string :=
  "stability-ai/deepfloyd-if:66657a7509f6e3a89e9f9116e02a0a2b5e28a50f162985392097cdb04041b312".

(** [os.getenv(key, default)] *)
Definition getenv (env : gmap string string) (key default : string) : string :=
  match env !! key with
  | Some v => v
  | None => default
  end.

(** The three module-level assignments executed when the module is loaded. *)
Definition load_globals (env : gmap string string) : Globals :=
  {| TELEGRAM_BOT_TOKEN := getenv env "TELEGRAM_BOT_TOKEN" "YOUR_TELEGRAM_BOT_TOKEN";
     REPLICATE_API_TOKEN := getenv env "REPLICATE_API_TOKEN" "YOUR_REPLICATE_API_TOKEN";
     WEBHOOK_HOSTNAME := env !! "RENDER_EXTERNAL_HOSTNAME" |}.

(** ** Outbound calls, log records and the process state *)

Inductive Event : Type :=
| EReplyText (chat : Z) (body : string)
| EReplicateRun (model prompt : string) (width height : Z)
| ERequestsGet (url : pyval)
| EReplyPhoto (chat : Z) (photo : list Byte.byte) (caption : string)
| EDeleteMessage (chat msg_id : Z).

Inductive LogRecord : Type :=
| InfoSendingPrompt (prompt : string)
| InfoImageUrl (url : pyval)
| ErrorDownloading (req_err : exn)
| ErrorGeneration (e : exn).

Record Proc : Type := mkProc {
  globals : Globals;
  environ : gmap string string;
  trace : list Event;
  logbook : list LogRecord
}.

(** The state of the process once the module has been loaded. *)
Definition startup (env : gmap string string) : Proc :=
  {| globals := load_globals env; environ := env; trace := []; logbook := [] |}.

(** The collaborators outside the program.  Each answer may depend on the
    calls made so far. *)
Record World : Type := mkWorld {
  w_reply_text : list Event -> Z -> string -> outcome Message;
  w_replicate_run : list Event -> string -> string -> Z -> Z -> outcome pyval;
  w_requests_get : list Event -> pyval -> outcome Response;
  w_reply_photo : list Event -> Z -> list Byte.byte -> string -> outcome unit;
  w_delete_message : list Event -> Z -> Z -> outcome unit
}.

(** ** A state and exception monad *)

Definition M (A : Type) : Type := Proc -> outcome A * Proc.

Definition ret {A} (a : A) : M A := fun s => (Returned a, s).

Definition raise {A} (e : exn) : M A := fun s => (Raised e, s).

Definition bind {A B} (m : M A) (k : A -> M B) : M B :=
  fun s =>
    match m s with
    | (Returned a, s') => k a s'
    | (Raised e, s') => (Raised e, s')
    end.

Notation "x <- c1 ;; c2" := (bind c1 (fun x => c2))
  (at level 100, c1 at next level, right associativity).
Notation "c1 ;; c2" := (bind c1 (fun _ => c2))
  (at level 100, right associativity).

(** [try: body except C1 as e: h1 except C2 as e: h2]: the first clause whose
    class test accepts the exception handles it; what a handler raises is
    not handled again. *)
Definition try_except {A} (body : M A)
    (clauses : list ((exn -> bool) * (exn -> M A))) : M A :=
  fun s =>
    match body s with
    | (Returned a, s') => (Returned a, s')
    | (Raised e, s') =>
        match find (fun c => fst c e) clauses with
        | Some c => snd c e s'
        | None => (Raised e, s')
        end
    end.

Definition get_globals : M Globals := fun s => (Returned (globals s), s).

Definition push_event (ev : Event) (s : Proc) : Proc :=
  {| globals := globals s; environ := environ s;
     trace := trace s ++ [ev]; logbook := logbook s |}.

Definition push_log (r : LogRecord) (s : Proc) : Proc :=
  {| globals := globals s; environ := environ s;
     trace := trace s; logbook := logbook s ++ [r] |}.

(** [os.environ[key] = value] *)
Definition setenv (key value : string) : M unit :=
  fun s =>
    (Returned tt,
     {| globals := globals s; environ := <[key := value]> (environ s);
        trace := trace s; logbook := logbook s |}).

Definition log (r : LogRecord) : M unit := fun s => (Returned tt, push_log r s).

(** An outbound call: the world answers from the calls made so far, and the
    call joins the trace whether it returns or raises. *)
Definition call {A} (ev : Event) (answer : list Event -> outcome A) : M A :=
  fun s => (answer (trace s), push_event ev s).

(** ** Message texts *)

Definition nl : string := String "010"%char EmptyString.

(** How an f-string renders [update.message.text]. *)
Definition format_text (t : option string) : string :=
  match t with
  | Some s => s
  | None => "None"
  end.

(** [not prompt] for a value that is [None] or a [str]. *)
Definition not_prompt (t : option string) : bool :=
  match t with
  | None => true
  | Some s => String.eqb s EmptyString
  end.

Definition start_text : string :=
  "Hello! Send me a text prompt, and I'll generate an image using DeepFloyd IF (via Replicate.com)."
  +:+ nl +:+ "Image generation can take a bit, please be patient.".

Definition no_prompt_text : string := "Please provide a text prompt!".

Definition no_token_text : string :=
  "Replicate API token not set. Cannot generate image. Please inform the bot administrator.".

Definition interim_text (prompt : string) : string :=
  "Generating image for: '" +:+ prompt +:+ "'" +:+ nl +:+ "This might take a while...".

Definition caption_text (prompt : string) : string :=
  "Generated for: '" +:+ prompt +:+ "'".

Definition no_output_text : string :=
  "Failed to generate image. No output from Replicate or unexpected format.".

Definition download_failed_text : string :=
  "Failed to download generated image. Please try again.".

Definition generation_error_text : string :=
  "An error occurred during image generation. Please try again later or with a simpler prompt."
  +:+ nl +:+ "Ensure your Replicate API token is correct and valid.".

(** ** The handlers of the bot *)

Section Handlers.

Variable w : World.

(** [update.message.text]: an attribute access on [None] raises. *)
Definition update_message (update : Update) : M Message :=
  match message update with
  | Some m => ret m
  | None => raise (AttributeError "'NoneType' object has no attribute 'text'")
  end.

(** [update.message.<attr>] for an attribute other than [text]. *)
Definition message_access (attr : string) (update : Update) : M Message :=
  match message update with
  | Some m => ret m
  | None =>
      raise (AttributeError ("'NoneType' object has no attribute '" +:+ attr +:+ "'"))
  end.

(** [update.message.reply_text(body)] *)
Definition reply_text (m : Message) (body : string) : M Message :=
  call (EReplyText (chat_id m) body)
       (fun h => w_reply_text w h (chat_id m) body).

(** [replicate.run(model, input={"prompt": .., "width": .., "height": ..})] *)
Definition replicate_run (model prompt : string) (width height : Z) : M pyval :=
  call (EReplicateRun model prompt width height)
       (fun h => w_replicate_run w h model prompt width height).

(** [requests.get(url)] *)
Definition requests_get (url : pyval) : M Response :=
  call (ERequestsGet url) (fun h => w_requests_get w h url).

(** [response.raise_for_status()] of the [requests] library: an [HTTPError]
    for the client and server error statuses, nothing otherwise. *)
Definition raise_for_status (response : Response) : M unit :=
  if (400 <=? status_code response) && (status_code response <? 600)
  then raise (HTTPError (status_code response))
  else ret tt.

(** [update.message.reply_photo(photo=InputFile(BytesIO(..)), caption=..)] *)
Definition reply_photo (m : Message) (photo : list Byte.byte) (caption : string) : M unit :=
  call (EReplyPhoto (chat_id m) photo caption)
       (fun h => w_reply_photo w h (chat_id m) photo caption).

(** [context.bot.delete_message(chat_id=.., message_id=..)] *)
Definition delete_message (chat msg_id : Z) : M unit :=
  call (EDeleteMessage chat msg_id) (fun h => w_delete_message w h chat msg_id).

(** [output and isinstance(output, list) and len(output) > 0] *)
Definition has_result (output : pyval) : bool :=
  truthy output &&
  match output with
  | PyList items => 0 <? Z.of_nat (length items)
  | _ => false
  end.

(** [output[0]] *)
Definition first_item (output : pyval) : M pyval :=
  match output with
  | PyList (x :: _) => ret x
  | PyList [] => raise IndexError
  | _ => raise (OtherException "TypeError")
  end.

(** A [telegram.Message] object is truthy. *)
Definition message_truthy (_ : Message) : bool := true.

Definition start (update : Update) : M unit :=
  m <- message_access "reply_text" update ;;
  _ <- reply_text m start_text ;;
  ret tt.

Definition generate_image_replicate (update : Update) : M unit :=
  m <- update_message update ;;
  let prompt := text m in
  if not_prompt prompt then
    _ <- reply_text m no_prompt_text ;;
    ret tt
  else
    g <- get_globals ;;
    if String.eqb (REPLICATE_API_TOKEN g) "YOUR_REPLICATE_API_TOKEN" then
      _ <- reply_text m no_token_text ;;
      ret tt
    else
      setenv "REPLICATE_API_TOKEN" (REPLICATE_API_TOKEN g) ;;
      sent_message <- reply_text m (interim_text (format_text prompt)) ;;
      try_except
        (log (InfoSendingPrompt (format_text prompt)) ;;
         output <- replicate_run DEEPFLOYD_REPLICATE_MODEL_ID (format_text prompt) 256 256 ;;
         if has_result output then
           image_url <- first_item output ;;
           log (InfoImageUrl image_url) ;;
           response <- requests_get image_url ;;
           raise_for_status response ;;
           let image_bytes := content response in
           reply_photo m image_bytes (caption_text (format_text prompt)) ;;
           delete_message (chat_id m) (message_id sent_message)
         else
           _ <- reply_text m no_output_text ;;
           delete_message (chat_id m) (message_id sent_message))
        [ (isinstance_RequestException,
           fun req_err =>
             log (ErrorDownloading req_err) ;;
             _ <- reply_text m download_failed_text ;;
             if message_truthy sent_message
             then delete_message (chat_id m) (message_id sent_message)
             else ret tt);
          (isinstance_Exception,
           fun e =>
             log (ErrorGeneration e) ;;
             _ <- reply_text m generation_error_text ;;
             if message_truthy sent_message
             then delete_message (chat_id m) (message_id sent_message)
             else ret tt) ].

End Handlers.

(** ** The web routes *)

Inductive Body : Type :=
| TextBody (s : string)
| JsonBody (fields : list (string * string)).

(** A request as the webhook view sees it: its method, and what
    [Update.de_json(request.get_json(force=True), application.bot)] makes of
    its body (an update, or the exception of a body that does not decode). *)
Record Request : Type := mkRequest {
  method : string;
  decoded : outcome Update
}.

(** The server: the process state and the tasks handed to the event loop
    with [asyncio.create_task] that have not run yet. *)
Record Server : Type := mkServer {
  proc : Proc;
  pending : list Update
}.

Definition index : Body * Z := (TextBody "Telegram DeepFloyd IF Bot is running!", 200).

Definition webhook_handler (request : Request) (srv : Server)
    : outcome (Body * Z) * Server :=
  if String.eqb (method request) "POST" then
    match decoded request with
    | Returned update =>
        (Returned (JsonBody [("status", "ok")], 200),
         {| proc := proc srv; pending := pending srv ++ [update] |})
    | Raised e => (Raised e, srv)
    end
  else (Returned (TextBody "Method Not Allowed", 405), srv).

(** What a request to the webhook path is answered with: the response of
    the view, or one of the two answers the framework gives without calling
    the view, each with the methods it lists in its [Allow] header. *)
Inductive Routed : Type :=
| FromView (body : Body) (status : Z)
| AutomaticOptions (allow : list string)
| MethodNotAllowed (allow : list string).

Definition status_of (r : Routed) : Z :=
  match r with
  | FromView _ status => status
  | AutomaticOptions _ => 200
  | MethodNotAllowed _ => 405
  end.

(** The [methods] argument of [@app.route(WEBHOOK_URL_PATH, methods=["POST"])]. *)
Definition webhook_methods : list string := ["POST"].

(** The rule registered by [@app.route(WEBHOOK_URL_PATH, methods=["POST"])],
    as Flask dispatches it: the view is called for the listed methods only;
    OPTIONS, which Flask adds to every rule, gets its automatic answer; any
    other method is refused with 405 before the view is reached.  What the
    view raises is handed on. *)
Definition webhook_route (request : Request) (srv : Server)
    : outcome Routed * Server :=
  if existsb (String.eqb (method request)) webhook_methods then
    match webhook_handler request srv with
    | (Returned (body, status), srv') => (Returned (FromView body status), srv')
    | (Raised e, srv') => (Raised e, srv')
    end
  else if String.eqb (method request) "OPTIONS" then
    (Returned (AutomaticOptions (webhook_methods ++ ["OPTIONS"])), srv)
  else (Returned (MethodNotAllowed (webhook_methods ++ ["OPTIONS"])), srv).

(** ** Startup *)

Inductive Filter : Type :=
| TEXT
| COMMAND
| FAnd (f g : Filter)
| FNot (f : Filter).

Inductive Callback : Type :=
| cb_start
| cb_generate_image_replicate.

Inductive Handler : Type :=
| CommandHandler (command : string) (callback : Callback)
| MessageHandler (filters : Filter) (callback : Callback).

(** The calls made while starting up. *)
Inductive BootCall : Type :=
| BInitialize
| BSetWebhook (url : string)
| BAppRun (host : string) (port : Z).

Inductive BootLog : Type :=
| LogError (msg : string)
| LogWebhookSet (url : string)
| LogStarting (port : Z).

(** The application object while the process starts: the handlers added to
    it, the calls made and the log written so far. *)
Record Boot : Type := mkBoot {
  handlers : list Handler;
  boot_calls : list BootCall;
  boot_log : list BootLog
}.

(** What the frameworks and the builtin [int] answer during startup. *)
Record BootWorld : Type := mkBootWorld {
  b_initialize : outcome unit;
  b_set_webhook : string -> outcome unit;
  b_int : string -> outcome Z;
  b_app_run : string -> Z -> outcome unit
}.

Definition add_handler (h : Handler) (b : Boot) : Boot :=
  {| handlers := handlers b ++ [h]; boot_calls := boot_calls b; boot_log := boot_log b |}.

Definition boot_call (c : BootCall) (b : Boot) : Boot :=
  {| handlers := handlers b; boot_calls := boot_calls b ++ [c]; boot_log := boot_log b |}.

Definition boot_logged (r : BootLog) (b : Boot) : Boot :=
  {| handlers := handlers b; boot_calls := boot_calls b; boot_log := boot_log b ++ [r] |}.

(** [f"https://{WEBHOOK_HOSTNAME}{WEBHOOK_URL_PATH}"] *)
Definition webhook_url (g : Globals) : string :=
  "https://" +:+ format_text (WEBHOOK_HOSTNAME g) +:+ WEBHOOK_URL_PATH.

Definition setup_bot_handlers (bw : BootWorld) (g : Globals) (b : Boot)
    : outcome unit * Boot :=
  let b := add_handler (CommandHandler "start" cb_start) b in
  let b := add_handler
             (MessageHandler (FAnd TEXT (FNot COMMAND)) cb_generate_image_replicate) b in
  match b_initialize bw with
  | Raised e => (Raised e, boot_call BInitialize b)
  | Returned _ =>
      let b := boot_call BInitialize b in
      match b_set_webhook bw (webhook_url g) with
      | Raised e => (Raised e, boot_call (BSetWebhook (webhook_url g)) b)
      | Returned _ =>
          (Returned tt,
           boot_logged (LogWebhookSet (webhook_url g))
             (boot_call (BSetWebhook (webhook_url g)) b))
      end
  end.

Definition telegram_token_error : string :=
  "!!! Telegram bot token is not set. Please update TELEGRAM_BOT_TOKEN or set environment variable. !!!".

Definition replicate_token_error : string :=
  "!!! Replicate API token is not set. Please update REPLICATE_API_TOKEN or set environment variable. !!!".

(** [int(os.environ.get("PORT", 8080))] *)
Definition listening_port (bw : BootWorld) (env : gmap string string) : outcome Z :=
  match env !! "PORT" with
  | Some v => b_int bw v
  | None => Returned 8080
  end.

(** The block run when the module is the main program. *)
Definition main (bw : BootWorld) (g : Globals) (env : gmap string string) (b : Boot)
    : outcome unit * Boot :=
  let b :=
    if String.eqb (TELEGRAM_BOT_TOKEN g) "YOUR_TELEGRAM_BOT_TOKEN"
    then boot_logged (LogError telegram_token_error) b else b in
  let b :=
    if String.eqb (REPLICATE_API_TOKEN g) "YOUR_REPLICATE_API_TOKEN"
    then boot_logged (LogError replicate_token_error) b else b in
  match setup_bot_handlers bw g b with
  | (Raised e, b) => (Raised e, b)
  | (Returned _, b) =>
      match listening_port bw env with
      | Raised e => (Raised e, b)
      | Returned port =>
          let b := boot_logged (LogStarting port) b in
          (b_app_run bw "0.0.0.0" port, boot_call (BAppRun "0.0.0.0" port) b)
      end
  end.

(** ** Names for the parts of the pipeline

    The [try] statement of [generate_image_replicate], its body and its two
    [except] clauses, named so that statements about them stay short;
    [generate_image_replicate_parts] below shows the pipeline is built from
    them. *)

Section Parts.

Variable w : World.
Variables (m sent_message : Message).

Definition on_output (output : pyval) : M unit :=
  if has_result output then
    image_url <- first_item output ;;
    log (InfoImageUrl image_url) ;;
    response <- requests_get w image_url ;;
    raise_for_status response ;;
    let image_bytes := content response in
    reply_photo w m image_bytes (caption_text (format_text (text m))) ;;
    delete_message w (chat_id m) (message_id sent_message)
  else
    _ <- reply_text w m no_output_text ;;
    delete_message w (chat_id m) (message_id sent_message).

Definition try_body : M unit :=
  log (InfoSendingPrompt (format_text (text m))) ;;
  output <- replicate_run w DEEPFLOYD_REPLICATE_MODEL_ID (format_text (text m)) 256 256 ;;
  on_output output.

Definition except_RequestException (req_err : exn) : M unit :=
  log (ErrorDownloading req_err) ;;
  _ <- reply_text w m download_failed_text ;;
  if message_truthy sent_message
  then delete_message w (chat_id m) (message_id sent_message)
  else ret tt.

Definition except_Exception (e : exn) : M unit :=
  log (ErrorGeneration e) ;;
  _ <- reply_text w m generation_error_text ;;
  if message_truthy sent_message
  then delete_message w (chat_id m) (message_id sent_message)
  else ret tt.

Definition generation : M unit :=
  try_except try_body
    [ (isinstance_RequestException, except_RequestException);
      (isinstance_Exception, except_Exception) ].

End Parts.

(** ** Properties of computations and of worlds *)



(** [m] takes every process state to one related to it by [R], whether it
    returns or raises. *)
Definition respects {A : Type} (R : Proc -> Proc -> Prop) (m : M A) : Prop :=
  forall s, R s (snd (m s)).

(** The component [f] of the process state is the same afterwards. *)
Definition same {X : Type} (f : Proc -> X) (s s' : Proc) : Prop := f s' = f s.

(** The trace afterwards is the trace before, followed by further calls. *)
Definition extends (s s' : Proc) : Prop :=
  exists rest, trace s' = trace s ++ rest.











(** ** Counting and classifying calls *)










(** ** Concrete collaborators used in the examples *)

Definition sent (id : Z) : Message :=
  {| text := None; chat_id := 7; message_id := id |}.

Definition png : list Byte.byte := [Byte.x89; Byte.x50; Byte.x4e; Byte.x47].

(** A world in which everything works: the service returns one URL and the
    download answers 200. *)
Definition happy_world : World :=
  {| w_reply_text := fun h _ _ => Returned (sent (100 + Z.of_nat (length h)));
     w_replicate_run := fun _ _ _ _ _ =>
       Returned (PyList [PyStr "https://replicate.delivery/out-0.png"]);
     w_requests_get := fun _ _ => Returned {| status_code := 200; content := png |};
     w_reply_photo := fun _ _ _ _ => Returned tt;
     w_delete_message := fun _ _ _ => Returned tt |}.

Definition user_message (t : option string) : Message :=
  {| text := t; chat_id := 7; message_id := 41 |}.

Definition update_with (t : option string) : Update :=
  {| message := Some (user_message t) |}.

Definition configured : Proc :=
  startup {[ "REPLICATE_API_TOKEN" := "r8_secret"; "TELEGRAM_BOT_TOKEN" := "123:abc" ]}.

Definition unconfigured : Proc := startup ∅.



(** The messaging platform refuses every text reply. *)
Definition telegram_down : World :=
  {| w_reply_text := fun _ _ _ => Raised (OtherException "telegram.error.NetworkError");
     w_replicate_run := w_replicate_run happy_world;
     w_requests_get := w_requests_get happy_world;
     w_reply_photo := w_reply_photo happy_world;
     w_delete_message := w_delete_message happy_world |}.

(** The generation service refuses the request. *)
Definition service_down : World :=
  {| w_reply_text := w_reply_text happy_world;
     w_replicate_run := fun _ _ _ _ _ =>
       Raised (OtherException "replicate.exceptions.ReplicateError");
     w_requests_get := w_requests_get happy_world;
     w_reply_photo := w_reply_photo happy_world;
     w_delete_message := w_delete_message happy_world |}.

Definition is_delete (ev : Event) : bool :=
  match ev with
  | EDeleteMessage _ _ => true
  | _ => false
  end.

(** The first deletion of an invocation is refused, later ones succeed. *)
Definition delete_fails_once : World :=
  {| w_reply_text := w_reply_text happy_world;
     w_replicate_run := w_replicate_run happy_world;
     w_requests_get := w_requests_get happy_world;
     w_reply_photo := w_reply_photo happy_world;
     w_delete_message := fun h _ _ =>
       if existsb is_delete h then Returned tt
       else Raised (OtherException "telegram.error.BadRequest") |}.

(** A delivery of the platform, and a request with another method. *)
Definition post_request : Request :=
  {| method := "POST"; decoded := Returned (update_with (Some "a cat")) |}.

Definition get_request : Request :=
  {| method := "GET"; decoded := Raised (OtherException "werkzeug.exceptions.BadRequest") |}.

Definition options_request : Request :=
  {| method := "OPTIONS"; decoded := Raised (OtherException "werkzeug.exceptions.BadRequest") |}.

Definition idle_server : Server := {| proc := configured; pending := [] |}.








(** An update without a message, as an edited message arrives. *)
Definition edited_update : Update := {| message := None |}.

(** A startup in which every framework call returns; [int] is asked about
    the text 10000 or about text that is no number. *)
Definition boot_world : BootWorld :=
  {| b_initialize := Returned tt;
     b_set_webhook := fun _ => Returned tt;
     b_int := fun v =>
       if String.eqb v "10000" then Returned 10000
       else Raised (OtherException "ValueError");
     b_app_run := fun _ _ => Returned tt |}.

(** The messaging platform cannot be reached while starting. *)
Definition boot_offline : BootWorld :=
  {| b_initialize := Raised (OtherException "telegram.error.NetworkError");
     b_set_webhook := b_set_webhook boot_world;
     b_int := b_int boot_world;
     b_app_run := b_app_run boot_world |}.

Definition fresh_boot : Boot := {| handlers := []; boot_calls := []; boot_log := [] |}.

(** * Properties *)

(** ** Equations of the monad *)

Lemma bind_ret {A B} (a : A) (k : A -> M B) s : bind (ret a) k s = k a s.
Proof. reflexivity. Qed.


Lemma bind_get_globals {B} (k : Globals -> M B) s :
  bind get_globals k s = k (globals s) s.
Proof. reflexivity. Qed.

Lemma bind_log {B} (r : LogRecord) (k : unit -> M B) s :
  bind (log r) k s = k tt (push_log r s).
Proof. reflexivity. Qed.

Lemma bind_call_returned {A B} ev (answer : list Event -> outcome A)
    (k : A -> M B) s a :
  answer (trace s) = Returned a ->
  bind (call ev answer) k s = k a (push_event ev s).
Proof. intros H. unfold bind, call. rewrite H. reflexivity. Qed.

Lemma bind_call_raised {A B} ev (answer : list Event -> outcome A)
    (k : A -> M B) s e :
  answer (trace s) = Raised e ->
  bind (call ev answer) k s = (Raised e, push_event ev s).
Proof. intros H. unfold bind, call. rewrite H. reflexivity. Qed.



(** The pipeline is the guards, the interim message and the [try]
    statement. *)
Lemma generate_image_replicate_parts w update :
  generate_image_replicate w update =
  (m <- update_message update ;;
   if not_prompt (text m) then
     _ <- reply_text w m no_prompt_text ;; ret tt
   else
     g <- get_globals ;;
     if String.eqb (REPLICATE_API_TOKEN g) "YOUR_REPLICATE_API_TOKEN" then
       _ <- reply_text w m no_token_text ;; ret tt
     else
       setenv "REPLICATE_API_TOKEN" (REPLICATE_API_TOKEN g) ;;
       sent_message <- reply_text w m (interim_text (format_text (text m))) ;;
       generation w m sent_message).
Proof. reflexivity. Qed.

(** ** Relations every step of the handlers respects *)

Section Respect.

Variable R : Proc -> Proc -> Prop.
Hypothesis R_refl : forall s, R s s.
Hypothesis R_trans : forall s1 s2 s3, R s1 s2 -> R s2 s3 -> R s1 s3.
Hypothesis R_event : forall ev s, R s (push_event ev s).
Hypothesis R_log : forall r s, R s (push_log r s).

Lemma respects_ret {A} (a : A) : respects R (ret a).
Proof. intros s. apply R_refl. Qed.

Lemma respects_raise {A} (e : exn) : respects R (@raise A e).
Proof. intros s. apply R_refl. Qed.


Lemma respects_log (r : LogRecord) : respects R (log r).
Proof. intros s. apply R_log. Qed.

Lemma respects_call {A} (ev : Event) (answer : list Event -> outcome A) :
  respects R (call ev answer).
Proof. intros s. apply R_event. Qed.

Lemma respects_bind {A B} (m : M A) (k : A -> M B) :
  respects R m -> (forall a, respects R (k a)) -> respects R (bind m k).
Proof.
  intros Hm Hk s. unfold bind.
  specialize (Hm s). destruct (m s) as [[a | e] s']; simpl in *.
  - eapply R_trans; [exact Hm | apply Hk].
  - exact Hm.
Qed.

Lemma respects_try_except {A} (body : M A) clauses :
  respects R body ->
  Forall (fun c => forall e, respects R (snd c e)) clauses ->
  respects R (try_except body clauses).
Proof.
  intros Hb Hc s. unfold try_except.
  specialize (Hb s). destruct (body s) as [[a | e] s']; simpl in *; [exact Hb |].
  destruct (find (fun c => fst c e) clauses) as [c |] eqn:Hfind; [| exact Hb].
  apply find_some in Hfind. destruct Hfind as [Hin _].
  rewrite Forall_forall in Hc.
  eapply R_trans; [exact Hb | apply (Hc c)].
  apply list_elem_of_In. exact Hin.
Qed.

Variable w : World.


Lemma respects_first_item output : respects R (first_item output).
Proof.
  unfold first_item. destruct output as [| | | | [| x items] |];
    first [apply respects_ret | apply respects_raise].
Qed.

Lemma respects_raise_for_status response :
  respects R (raise_for_status response).
Proof.
  unfold raise_for_status.
  destruct ((400 <=? status_code response) && (status_code response <? 600));
    [apply respects_raise | apply respects_ret].
Qed.

Lemma respects_on_output m sent_message output :
  respects R (on_output w m sent_message output).
Proof.
  unfold on_output. destruct (has_result output).
  - apply respects_bind; [apply respects_first_item | intros image_url].
    apply respects_bind; [apply respects_log | intros _].
    apply respects_bind; [apply respects_call | intros response].
    apply respects_bind; [apply respects_raise_for_status | intros _].
    apply respects_bind; [apply respects_call | intros _].
    apply respects_call.
  - apply respects_bind; [apply respects_call | intros _].
    apply respects_call.
Qed.

Lemma respects_try_body m sent_message : respects R (try_body w m sent_message).
Proof.
  unfold try_body.
  apply respects_bind; [apply respects_log | intros _].
  apply respects_bind; [apply respects_call | intros output].
  apply respects_on_output.
Qed.

Lemma respects_except_RequestException m sent_message e :
  respects R (except_RequestException w m sent_message e).
Proof.
  unfold except_RequestException.
  apply respects_bind; [apply respects_log | intros _].
  apply respects_bind; [apply respects_call | intros _].
  simpl. apply respects_call.
Qed.

Lemma respects_except_Exception m sent_message e :
  respects R (except_Exception w m sent_message e).
Proof.
  unfold except_Exception.
  apply respects_bind; [apply respects_log | intros _].
  apply respects_bind; [apply respects_call | intros _].
  simpl. apply respects_call.
Qed.

Lemma respects_clauses m sent_message :
  Forall (fun c : (exn -> bool) * (exn -> M unit) => forall e, respects R (snd c e))
    [ (isinstance_RequestException, except_RequestException w m sent_message);
      (isinstance_Exception, except_Exception w m sent_message) ].
Proof.
  repeat constructor; intros e; simpl.
  - apply respects_except_RequestException.
  - apply respects_except_Exception.
Qed.

Lemma respects_generation m sent_message :
  respects R (generation w m sent_message).
Proof.
  apply respects_try_except; [apply respects_try_body | apply respects_clauses].
Qed.

End Respect.

(** The two relations used below. *)
Lemma same_refl {X} (f : Proc -> X) s : same f s s.
Proof. reflexivity. Qed.

Lemma same_trans {X} (f : Proc -> X) s1 s2 s3 :
  same f s1 s2 -> same f s2 s3 -> same f s1 s3.
Proof. unfold same. congruence. Qed.

Lemma extends_refl s : extends s s.
Proof. exists []. symmetry. apply app_nil_r. Qed.

Lemma extends_trans s1 s2 s3 : extends s1 s2 -> extends s2 s3 -> extends s1 s3.
Proof.
  intros [r1 H1] [r2 H2]. exists (r1 ++ r2).
  rewrite H2, H1. symmetry. apply app_assoc.
Qed.

Lemma extends_event ev s : extends s (push_event ev s).
Proof. exists [ev]. reflexivity. Qed.

Lemma extends_log r s : extends s (push_log r s).
Proof. exists []. simpl. symmetry. apply app_nil_r. Qed.

Create HintDb relations.
#[export] Hint Resolve same_refl same_trans extends_refl extends_trans
  extends_event extends_log : relations.

(** ** The configuration under the pipeline *)






(** ** The two guards *)

Lemma not_prompt_true_iff t : not_prompt t = true <-> t = None \/ t = Some EmptyString.
Proof.
  destruct t as [p |]; simpl.
  - rewrite String.eqb_eq. split; [intros ->; right; reflexivity |].
    intros [H | H]; congruence.
  - split; [left; reflexivity | reflexivity].
Qed.

Lemma not_prompt_text p : p <> EmptyString -> not_prompt (Some p) = false.
Proof. intros Hp. simpl. apply String.eqb_neq. exact Hp. Qed.


Lemma pipeline_no_prompt w update m s :
  message update = Some m ->
  not_prompt (text m) = true ->
  generate_image_replicate w update s
  = (_ <- reply_text w m no_prompt_text ;; ret tt) s.
Proof.
  intros Hm Hp. rewrite generate_image_replicate_parts. unfold update_message.
  rewrite Hm, bind_ret, Hp. reflexivity.
Qed.

Lemma pipeline_no_token w update m s :
  message update = Some m ->
  not_prompt (text m) = false ->
  REPLICATE_API_TOKEN (globals s) = "YOUR_REPLICATE_API_TOKEN" ->
  generate_image_replicate w update s
  = (_ <- reply_text w m no_token_text ;; ret tt) s.
Proof.
  intros Hm Hp Htoken. rewrite generate_image_replicate_parts. unfold update_message.
  rewrite Hm, bind_ret, Hp, bind_get_globals, Htoken. reflexivity.
Qed.

Lemma pipeline_guards_passed w update m s :
  message update = Some m ->
  not_prompt (text m) = false ->
  REPLICATE_API_TOKEN (globals s) <> "YOUR_REPLICATE_API_TOKEN" ->
  generate_image_replicate w update s
  = (sent_message <- reply_text w m (interim_text (format_text (text m))) ;;
     generation w m sent_message)
      (snd (setenv "REPLICATE_API_TOKEN" (REPLICATE_API_TOKEN (globals s)) s)).
Proof.
  intros Hm Hp Htoken. rewrite generate_image_replicate_parts. unfold update_message.
  rewrite Hm, bind_ret, Hp, bind_get_globals.
  apply String.eqb_neq in Htoken. rewrite Htoken. reflexivity.
Qed.

Lemma reply_only_trace w m body s :
  trace (snd ((_ <- reply_text w m body ;; ret tt) s))
  = trace s ++ [EReplyText (chat_id m) body].
Proof.
  unfold bind, reply_text, call.
  destruct (w_reply_text w (trace s) (chat_id m) body); reflexivity.
Qed.

(** C5.  When the text of the message is absent or the empty string, the
    calls of the invocation are exactly one text reply, the request to
    provide a prompt: no generation call, nor any other call, is made. *)
Theorem empty_prompt_single_reply w update m s :
  message update = Some m ->
  text m = None \/ text m = Some EmptyString ->
  trace (snd (generate_image_replicate w update s))
  = trace s ++ [EReplyText (chat_id m) "Please provide a text prompt!"].
Proof.
  intros Hm Hp. apply not_prompt_true_iff in Hp.
  rewrite (pipeline_no_prompt w update m s Hm Hp).
  apply reply_only_trace.
Qed.

Lemma empty_prompt_single_reply_witness :
  trace (snd (generate_image_replicate happy_world (update_with (Some EmptyString)) configured))
  = [EReplyText 7 "Please provide a text prompt!"].
Proof.
  apply (empty_prompt_single_reply happy_world (update_with (Some EmptyString))
           (user_message (Some EmptyString)) configured).
  - reflexivity.
  - right. reflexivity.
Defined.

(** C6.  With a non-empty prompt and the service credential still at its
    placeholder, the calls of the invocation are exactly one text reply, the
    configuration error: no generation call is made. *)
Theorem missing_credential_single_reply w update m p s :
  message update = Some m ->
  text m = Some p ->
  p <> EmptyString ->
  REPLICATE_API_TOKEN (globals s) = "YOUR_REPLICATE_API_TOKEN" ->
  trace (snd (generate_image_replicate w update s))
  = trace s ++ [EReplyText (chat_id m) no_token_text].
Proof.
  intros Hm Ht Hp Htoken.
  assert (Hnp : not_prompt (text m) = false)
    by (rewrite Ht; apply not_prompt_text; exact Hp).
  rewrite (pipeline_no_token w update m s Hm Hnp Htoken).
  apply reply_only_trace.
Qed.

Lemma missing_credential_single_reply_witness :
  trace (snd (generate_image_replicate happy_world (update_with (Some "a cat")) unconfigured))
  = [EReplyText 7 no_token_text].
Proof.
  apply (missing_credential_single_reply happy_world (update_with (Some "a cat"))
           (user_message (Some "a cat")) "a cat" unconfigured).
  - reflexivity.
  - reflexivity.
  - discriminate.
  - reflexivity.
Defined.

(** ** Running the pipeline against given answers *)

Lemma has_result_cons x items : has_result (PyList (x :: items)) = true.
Proof. reflexivity. Qed.

Lemma has_result_true output :
  has_result output = true -> exists x items, output = PyList (x :: items).
Proof.
  destruct output as [| | | | [| x items] |]; unfold has_result; simpl;
    try rewrite andb_false_r; try discriminate.
  intros _. exists x, items. reflexivity.
Qed.

Lemma error_status_iff response :
  (400 <=? status_code response) && (status_code response <? 600) = true
  <-> 400 <= status_code response < 600.
Proof. rewrite andb_true_iff, Z.leb_le, Z.ltb_lt. reflexivity. Qed.

Lemma no_error_status response :
  status_code response < 400 \/ 600 <= status_code response ->
  (400 <=? status_code response) && (status_code response <? 600) = false.
Proof.
  intros H. apply not_true_is_false. rewrite error_status_iff. lia.
Qed.

Lemma call_returned {A} ev (answer : list Event -> outcome A) s a :
  answer (trace s) = Returned a ->
  call ev answer s = (Returned a, push_event ev s).
Proof. intros H. unfold call. rewrite H. reflexivity. Qed.

Lemma call_raised {A} ev (answer : list Event -> outcome A) s e :
  answer (trace s) = Raised e ->
  call ev answer s = (Raised e, push_event ev s).
Proof. intros H. unfold call. rewrite H. reflexivity. Qed.

(** The next outbound call gets the answer [H] speaks of. *)
Ltac returns H :=
  first [ erewrite bind_call_returned by exact H
        | erewrite call_returned by exact H ].

Ltac raises H :=
  first [ erewrite bind_call_raised by exact H
        | erewrite call_raised by exact H ].

Ltac open_parts :=
  unfold generation, try_except, try_body, on_output, except_RequestException,
    except_Exception, reply_text, replicate_run, requests_get, reply_photo,
    delete_message.

(** Past the two guards, from a state whose trace is empty. *)
Ltac enter_generation Hm Ht Hp Htoken Htrace s :=
  let Hnp := fresh "Hnp" in
  pose proof (not_prompt_text _ Hp) as Hnp; rewrite <- Ht in Hnp;
  rewrite (pipeline_guards_passed _ _ _ s Hm Hnp Htoken);
  destruct s as [g env tr lg]; cbn [trace] in Htrace; subst tr;
  open_parts; rewrite ?Ht; cbn [format_text].




(** C10.  When the photo reply has been sent and the deletion of the interim
    message then raises an exception that is an [Exception] but no
    [RequestException], the catch-all clause sends the generic error text:
    the calls of that one invocation hold the photo reply and, after it, an
    error reply. *)
Theorem photo_then_error_reply w update m p s sent_message url more response e :
  message update = Some m ->
  text m = Some p ->
  p <> EmptyString ->
  REPLICATE_API_TOKEN (globals s) <> "YOUR_REPLICATE_API_TOKEN" ->
  trace s = [] ->
  let e1 := EReplyText (chat_id m) (interim_text p) in
  let e2 := EReplicateRun DEEPFLOYD_REPLICATE_MODEL_ID p 256 256 in
  let e3 := ERequestsGet url in
  let e4 := EReplyPhoto (chat_id m) (content response) (caption_text p) in
  let e5 := EDeleteMessage (chat_id m) (message_id sent_message) in
  let e6 := EReplyText (chat_id m) generation_error_text in
  w_reply_text w [] (chat_id m) (interim_text p) = Returned sent_message ->
  w_replicate_run w [e1] DEEPFLOYD_REPLICATE_MODEL_ID p 256 256
  = Returned (PyList (url :: more)) ->
  w_requests_get w [e1; e2] url = Returned response ->
  status_code response < 400 \/ 600 <= status_code response ->
  w_reply_photo w [e1; e2; e3] (chat_id m) (content response) (caption_text p)
  = Returned tt ->
  w_delete_message w [e1; e2; e3; e4] (chat_id m) (message_id sent_message)
  = Raised e ->
  isinstance_RequestException e = false ->
  isinstance_Exception e = true ->
  exists rest,
    trace (snd (generate_image_replicate w update s))
    = e1 :: e2 :: e3 :: e4 :: e5 :: e6 :: rest.
Proof.
  intros Hm Ht Hp Htoken Htrace e1 e2 e3 e4 e5 e6
    Hsent Hrun Hget Hstatus Hphoto Hdel Hreq Hexc.
  apply no_error_status in Hstatus.
  enter_generation Hm Ht Hp Htoken Htrace s.
  returns Hsent. rewrite bind_log. returns Hrun.
  rewrite has_result_cons. cbn [first_item]. rewrite bind_ret, bind_log.
  returns Hget. unfold raise_for_status. rewrite Hstatus, bind_ret.
  returns Hphoto. raises Hdel.
  cbn [find fst snd]. rewrite Hreq, Hexc. cbn [find fst snd].
  rewrite bind_log.
  destruct (w_reply_text w [e1; e2; e3; e4; e5] (chat_id m) generation_error_text)
    as [sent' | e'] eqn:Hreply.
  - returns Hreply. exists [e5]. reflexivity.
  - raises Hreply. exists []. reflexivity.
Qed.

Lemma photo_then_error_reply_witness :
  exists rest,
    trace (snd (generate_image_replicate delete_fails_once (update_with (Some "a cat")) configured))
    = EReplyText 7 (interim_text "a cat")
      :: EReplicateRun DEEPFLOYD_REPLICATE_MODEL_ID "a cat" 256 256
      :: ERequestsGet (PyStr "https://replicate.delivery/out-0.png")
      :: EReplyPhoto 7 png (caption_text "a cat")
      :: EDeleteMessage 7 100
      :: EReplyText 7 generation_error_text
      :: rest.
Proof.
  apply (photo_then_error_reply delete_fails_once (update_with (Some "a cat"))
           (user_message (Some "a cat")) "a cat" configured (sent 100)
           (PyStr "https://replicate.delivery/out-0.png") []
           {| status_code := 200; content := png |}
           (OtherException "telegram.error.BadRequest")).
  - reflexivity.
  - reflexivity.
  - discriminate.
  - vm_compute. discriminate.
  - reflexivity.
  - reflexivity.
  - reflexivity.
  - reflexivity.
  - left. simpl. lia.
  - reflexivity.
  - reflexivity.
  - reflexivity.
  - reflexivity.
Defined.




(** ** The first call of the [try] statement *)



Lemma extends_push_event ev s s' :
  extends (push_event ev s) s' -> exists rest, trace s' = trace s ++ ev :: rest.
Proof.
  intros [rest H]. exists rest. rewrite H. simpl.
  rewrite <- app_assoc. reflexivity.
Qed.

Ltac trace_grows :=
  first [ exact extends_refl | exact extends_trans
        | exact extends_event | exact extends_log ].





(** ** What the [try] statement raises and returns *)






Section Behaviour.

Variable w : World.
Variables (m sent_message : Message).






(** *** What makes the [try] body raise *)





(** *** What the [try] statement makes of its body *)

Lemma generation_body_returned s a s2 :
  try_body w m sent_message s = (Returned a, s2) ->
  generation w m sent_message s = (Returned a, s2).
Proof. intros H. unfold generation, try_except. rewrite H. reflexivity. Qed.








End Behaviour.

(** ** Failures *)










(** ** The webhook route *)

(** C8, as the code has it.  A POST to the webhook path whose body decodes
    to an update is answered 200 with the JSON acknowledgement while the
    update is only handed over as a pending task: the process state is
    untouched and no outbound call has been made, so nothing the pipeline
    does later bears on the response.  A request with a method other than
    POST and OPTIONS is answered 405 by the route, which lists POST only,
    before the view is reached; an OPTIONS request gets the automatic answer
    of the framework, with status 200.  The 405 branch of the view itself
    never answers a request.  The response is the same whatever state
    earlier pipeline runs left the server in. *)
Theorem webhook_route_responses request srv :
  (forall srv', fst (webhook_route request srv') = fst (webhook_route request srv)) /\
  (forall update,
      method request = "POST" ->
      decoded request = Returned update ->
      webhook_route request srv
      = (Returned (FromView (JsonBody [("status", "ok")]) 200),
         {| proc := proc srv; pending := pending srv ++ [update] |})) /\
  (method request <> "POST" ->
   method request <> "OPTIONS" ->
   webhook_route request srv = (Returned (MethodNotAllowed ["POST"; "OPTIONS"]), srv) /\
   status_of (MethodNotAllowed ["POST"; "OPTIONS"]) = 405) /\
  (method request = "OPTIONS" ->
   webhook_route request srv = (Returned (AutomaticOptions ["POST"; "OPTIONS"]), srv) /\
   status_of (AutomaticOptions ["POST"; "OPTIONS"]) = 200) /\
  (forall body status,
      fst (webhook_route request srv) = Returned (FromView body status) ->
      method request = "POST" /\ status = 200).
Proof.
  unfold webhook_route, webhook_handler. cbn [existsb webhook_methods orb app].
  rewrite orb_false_r.
  split; [| split; [| split; [| split]]].
  - intros srv'. destruct (String.eqb (method request) "POST").
    + destruct (decoded request); reflexivity.
    + destruct (String.eqb (method request) "OPTIONS"); reflexivity.
  - intros update Hmethod Hdecoded. rewrite Hmethod, Hdecoded. reflexivity.
  - intros Hpost Hoptions.
    apply String.eqb_neq in Hpost, Hoptions. rewrite Hpost, Hoptions.
    split; reflexivity.
  - intros Hoptions. rewrite Hoptions. split; reflexivity.
  - intros body status.
    destruct (String.eqb (method request) "POST") eqn:Hpost.
    + apply String.eqb_eq in Hpost.
      destruct (decoded request); cbn [fst]; [| discriminate].
      intros [= _ <-]. split; [exact Hpost | reflexivity].
    + destruct (String.eqb (method request) "OPTIONS"); cbn [fst]; discriminate.
Qed.

Lemma webhook_route_responses_witness :
  webhook_route post_request idle_server
  = (Returned (FromView (JsonBody [("status", "ok")]) 200),
     {| proc := configured; pending := [update_with (Some "a cat")] |}) /\
  webhook_route get_request idle_server
  = (Returned (MethodNotAllowed ["POST"; "OPTIONS"]), idle_server).
Proof.
  split.
  - apply (proj1 (proj2 (webhook_route_responses post_request idle_server))
             (update_with (Some "a cat")));
      reflexivity.
  - apply (proj1 (proj2 (proj2 (webhook_route_responses get_request idle_server))));
      discriminate.
Defined.

(** The claim C8 as worded fails for the method OPTIONS: the request is no
    POST, and its response is the automatic answer with status 200, not
    405. *)
Lemma webhook_options_counterexample :
  method options_request <> "POST" /\
  fst (webhook_route options_request idle_server)
  = Returned (AutomaticOptions ["POST"; "OPTIONS"]) /\
  status_of (AutomaticOptions ["POST"; "OPTIONS"]) <> 405.
Proof. repeat split; try discriminate. Qed.

(** * Further properties of the handlers *)

(** ** Updates without a message *)

(** X1.  For an update that carries no message both handlers raise
    [AttributeError] at their first attribute access, [text] in the pipeline
    and [reply_text] in the [/start] handler: no outbound call is made and
    the process state is left as it was. *)
Theorem missing_message_raises w update s :
  message update = None ->
  generate_image_replicate w update s
  = (Raised (AttributeError "'NoneType' object has no attribute 'text'"), s) /\
  start w update s
  = (Raised (AttributeError "'NoneType' object has no attribute 'reply_text'"), s).
Proof.
  intros Hm. unfold generate_image_replicate, start, update_message, message_access.
  rewrite Hm. split; reflexivity.
Qed.

Lemma missing_message_raises_witness :
  generate_image_replicate happy_world edited_update configured
  = (Raised (AttributeError "'NoneType' object has no attribute 'text'"), configured) /\
  start happy_world edited_update configured
  = (Raised (AttributeError "'NoneType' object has no attribute 'reply_text'"), configured).
Proof.
  apply (missing_message_raises happy_world edited_update configured). reflexivity.
Defined.

(** ** The test on the service output *)

(** X2.  The test [output and isinstance(output, list) and len(output) > 0]
    accepts exactly the non-empty lists, and after it [output[0]] returns
    the head of the list without raising. *)
Theorem has_result_nonempty_list output :
  (has_result output = true <-> exists x items, output = PyList (x :: items)) /\
  (has_result output = true ->
   exists x items,
     output = PyList (x :: items) /\ forall s, first_item output s = (Returned x, s)).
Proof.
  split; [split |].
  - apply has_result_true.
  - intros (x & items & ->). apply has_result_cons.
  - intros H. apply has_result_true in H. destruct H as (x & items & ->).
    exists x, items. split; reflexivity.
Qed.

Lemma has_result_nonempty_list_witness :
  exists x items,
    PyList [PyStr "a"; PyNone] = PyList (x :: items) /\
    forall s, first_item (PyList [PyStr "a"; PyNone]) s = (Returned x, s).
Proof.
  apply (proj2 (has_result_nonempty_list (PyList [PyStr "a"; PyNone]))). reflexivity.
Defined.

(** ** The failure paths of the [try] statement *)











(** ** The first call, the environment and the credential *)

Lemma past_guards_first_call w update m s :
  message update = Some m ->
  not_prompt (text m) = false ->
  REPLICATE_API_TOKEN (globals s) <> "YOUR_REPLICATE_API_TOKEN" ->
  exists rest,
    trace (snd (generate_image_replicate w update s))
    = trace s ++ EReplyText (chat_id m) (interim_text (format_text (text m))) :: rest.
Proof.
  intros Hm Hp Htoken.
  rewrite (pipeline_guards_passed w update m s Hm Hp Htoken).
  set (s1 := snd (setenv _ _ s)).
  change (trace s) with (trace s1).
  apply extends_push_event.
  unfold reply_text, bind, call.
  destruct (w_reply_text w (trace s1) (chat_id m) (interim_text (format_text (text m))))
    as [sent_message | e].
  - apply (respects_generation extends); trace_grows.
  - apply extends_refl.
Qed.

(** X8.  Whenever the update carries a message, the first call of the
    pipeline is a text reply to the chat the message came from: every
    invocation starts by attempting to tell the user something. *)
Theorem pipeline_first_call_is_reply w update m s :
  message update = Some m ->
  exists body rest,
    trace (snd (generate_image_replicate w update s))
    = trace s ++ EReplyText (chat_id m) body :: rest.
Proof.
  intros Hm.
  destruct (not_prompt (text m)) eqn:Hp.
  - exists no_prompt_text, [].
    rewrite (pipeline_no_prompt w update m s Hm Hp). apply reply_only_trace.
  - destruct (String.eqb (REPLICATE_API_TOKEN (globals s)) "YOUR_REPLICATE_API_TOKEN")
      eqn:Htoken.
    + apply String.eqb_eq in Htoken. exists no_token_text, [].
      rewrite (pipeline_no_token w update m s Hm Hp Htoken). apply reply_only_trace.
    + apply String.eqb_neq in Htoken.
      destruct (past_guards_first_call w update m s Hm Hp Htoken) as [rest Hrest].
      exists (interim_text (format_text (text m))), rest. exact Hrest.
Qed.

Lemma pipeline_first_call_is_reply_witness :
  exists body rest,
    trace (snd (generate_image_replicate service_down (update_with (Some "a cat")) configured))
    = EReplyText 7 body :: rest.
Proof.
  apply (pipeline_first_call_is_reply service_down (update_with (Some "a cat"))
           (user_message (Some "a cat")) configured).
  reflexivity.
Defined.

(** X9.  From any process state, the pipeline leaves the environment alone
    when one of the two guards stops it, and otherwise leaves it with the
    variable REPLICATE_API_TOKEN set to the module's credential and every
    other variable as it was, however the rest of the invocation goes. *)
Theorem environ_after_pipeline w update m s :
  message update = Some m ->
  environ (snd (generate_image_replicate w update s))
  = if not_prompt (text m)
       || String.eqb (REPLICATE_API_TOKEN (globals s)) "YOUR_REPLICATE_API_TOKEN"
    then environ s
    else <["REPLICATE_API_TOKEN" := REPLICATE_API_TOKEN (globals s)]> (environ s).
Proof.
  intros Hm.
  destruct (not_prompt (text m)) eqn:Hp; cbn [orb].
  - rewrite (pipeline_no_prompt w update m s Hm Hp).
    unfold bind, reply_text, call.
    destruct (w_reply_text w (trace s) (chat_id m) no_prompt_text); reflexivity.
  - destruct (String.eqb (REPLICATE_API_TOKEN (globals s)) "YOUR_REPLICATE_API_TOKEN")
      eqn:Htoken.
    + apply String.eqb_eq in Htoken.
      rewrite (pipeline_no_token w update m s Hm Hp Htoken).
      unfold bind, reply_text, call.
      destruct (w_reply_text w (trace s) (chat_id m) no_token_text); reflexivity.
    + apply String.eqb_neq in Htoken.
      rewrite (pipeline_guards_passed w update m s Hm Hp Htoken).
      set (s1 := snd (setenv _ _ s)).
      change (<["REPLICATE_API_TOKEN" := REPLICATE_API_TOKEN (globals s)]> (environ s))
        with (environ s1).
      apply (respects_bind (same environ)).
      * exact (same_trans environ).
      * apply respects_call. reflexivity.
      * intros sent_message. apply respects_generation;
          first [exact (same_refl environ) | exact (same_trans environ) | reflexivity].
Qed.

Lemma environ_after_pipeline_witness :
  environ (snd (generate_image_replicate service_down (update_with (Some "a cat"))
                  {| globals := load_globals {[ "REPLICATE_API_TOKEN" := "r8_secret" ]};
                     environ := ∅; trace := []; logbook := [] |}))
  !! "REPLICATE_API_TOKEN" = Some "r8_secret".
Proof.
  rewrite (environ_after_pipeline service_down (update_with (Some "a cat"))
             (user_message (Some "a cat"))).
  - reflexivity.
  - reflexivity.
Defined.

(** X10.  What the environment holds when the module is loaded decides the
    credential guard.  For a non-empty prompt: without the variable
    REPLICATE_API_TOKEN, or with the placeholder as its value, the pipeline
    only sends the configuration error; with any other value, the empty
    string included, the guard lets the invocation through and its first
    call is the interim message. *)
Theorem startup_credential_guard w update m p env :
  message update = Some m ->
  text m = Some p ->
  p <> EmptyString ->
  (env !! "REPLICATE_API_TOKEN" = None \/
   env !! "REPLICATE_API_TOKEN" = Some "YOUR_REPLICATE_API_TOKEN" ->
   trace (snd (generate_image_replicate w update (startup env)))
   = [EReplyText (chat_id m) no_token_text]) /\
  (forall v,
      env !! "REPLICATE_API_TOKEN" = Some v ->
      v <> "YOUR_REPLICATE_API_TOKEN" ->
      exists rest,
        trace (snd (generate_image_replicate w update (startup env)))
        = EReplyText (chat_id m) (interim_text p) :: rest).
Proof.
  intros Hm Ht Hp.
  assert (Hnp : not_prompt (text m) = false)
    by (rewrite Ht; apply not_prompt_text; exact Hp).
  split.
  - intros Henv.
    assert (Htoken : REPLICATE_API_TOKEN (globals (startup env)) = "YOUR_REPLICATE_API_TOKEN").
    { cbn [startup globals load_globals REPLICATE_API_TOKEN]. unfold getenv.
      destruct Henv as [-> | ->]; reflexivity. }
    rewrite (pipeline_no_token w update m (startup env) Hm Hnp Htoken).
    apply reply_only_trace.
  - intros v Henv Hv.
    assert (Htoken : REPLICATE_API_TOKEN (globals (startup env)) <> "YOUR_REPLICATE_API_TOKEN").
    { cbn [startup globals load_globals REPLICATE_API_TOKEN]. unfold getenv.
      rewrite Henv. exact Hv. }
    destruct (past_guards_first_call w update m (startup env) Hm Hnp Htoken)
      as [rest Hrest].
    exists rest. rewrite Hrest, Ht. reflexivity.
Qed.

Lemma startup_credential_guard_witness :
  exists rest,
    trace (snd (generate_image_replicate happy_world (update_with (Some "a cat"))
                  (startup {[ "REPLICATE_API_TOKEN" := EmptyString ]})))
    = EReplyText 7 (interim_text "a cat") :: rest.
Proof.
  apply (proj2 (startup_credential_guard happy_world (update_with (Some "a cat"))
                  (user_message (Some "a cat")) "a cat"
                  {[ "REPLICATE_API_TOKEN" := EmptyString ]}
                  eq_refl eq_refl ltac:(discriminate)) EmptyString).
  - reflexivity.
  - discriminate.
Defined.

(** ** The other handlers *)

(** X11.  The webhook view never runs a handler itself and never touches
    the process state; a body that does not decode makes it raise with the
    server unchanged; and the pending tasks change only when the response
    is the 200 acknowledgement. *)
Theorem webhook_schedules_only_on_ack request srv :
  proc (snd (webhook_handler request srv)) = proc srv /\
  (forall e,
      method request = "POST" ->
      decoded request = Raised e ->
      webhook_handler request srv = (Raised e, srv)) /\
  (pending (snd (webhook_handler request srv)) <> pending srv ->
   fst (webhook_handler request srv) = Returned (JsonBody [("status", "ok")], 200)).
Proof.
  unfold webhook_handler. repeat split.
  - destruct (String.eqb (method request) "POST"); [| reflexivity].
    destruct (decoded request); reflexivity.
  - intros e Hmethod Hdecoded. rewrite Hmethod, Hdecoded. reflexivity.
  - destruct (String.eqb (method request) "POST"); [| intros H; contradiction].
    destruct (decoded request); [reflexivity | intros H; contradiction].
Qed.

Lemma webhook_schedules_only_on_ack_witness :
  webhook_handler
    {| method := "POST"; decoded := Raised (OtherException "werkzeug.exceptions.BadRequest") |}
    idle_server
  = (Raised (OtherException "werkzeug.exceptions.BadRequest"), idle_server).
Proof.
  apply (proj1 (proj2 (webhook_schedules_only_on_ack
                         {| method := "POST";
                            decoded := Raised (OtherException "werkzeug.exceptions.BadRequest") |}
                         idle_server))); reflexivity.
Defined.

(** X12.  The [/start] handler makes exactly one call, the greeting sent to
    the chat of the message, and changes nothing else in the process; it
    has no [try], so it returns when that reply returns and raises what the
    reply raises. *)
Theorem start_single_reply w update m s :
  message update = Some m ->
  snd (start w update s) = push_event (EReplyText (chat_id m) start_text) s /\
  (forall sent_message,
      w_reply_text w (trace s) (chat_id m) start_text = Returned sent_message ->
      fst (start w update s) = Returned tt) /\
  (forall e,
      w_reply_text w (trace s) (chat_id m) start_text = Raised e ->
      fst (start w update s) = Raised e).
Proof.
  intros Hm. unfold start, message_access. rewrite Hm, bind_ret.
  unfold bind, reply_text, call.
  destruct (w_reply_text w (trace s) (chat_id m) start_text) as [msg | e0].
  - split; [reflexivity | split].
    + intros sent_message _. reflexivity.
    + intros e [=].
  - split; [reflexivity | split].
    + intros sent_message [=].
    + intros e [= <-]. reflexivity.
Qed.

Lemma start_single_reply_witness :
  snd (start telegram_down (update_with (Some "/start")) configured)
  = push_event (EReplyText 7 start_text) configured /\
  fst (start telegram_down (update_with (Some "/start")) configured)
  = Raised (OtherException "telegram.error.NetworkError").
Proof.
  destruct (start_single_reply telegram_down (update_with (Some "/start"))
              (user_message (Some "/start")) configured eq_refl) as (Hs & _ & Hr).
  split; [exact Hs | apply Hr; reflexivity].
Defined.

(** ** How many calls an invocation makes *)





Section Spending.

Local Open Scope nat_scope.

Variable c : Event -> nat.






(** The parts of the pipeline, for a weight bounded on each kind of call
    the invocation for [m] can make. *)
Variable w : World.
Variables (m sent_message : Message).
Variables kr kg kd kp kx : nat.
Hypothesis c_reply : forall body, c (EReplyText (chat_id m) body) <= kr.
Hypothesis c_run :
  c (EReplicateRun DEEPFLOYD_REPLICATE_MODEL_ID (format_text (text m)) 256 256) <= kg.
Hypothesis c_get : forall url, c (ERequestsGet url) <= kd.
Hypothesis c_photo :
  forall photo,
    c (EReplyPhoto (chat_id m) photo (caption_text (format_text (text m)))) <= kp.
Hypothesis c_delete :
  c (EDeleteMessage (chat_id m) (message_id sent_message)) <= kx.







End Spending.



(** ** Whom the calls of an invocation concern *)





(** ** Startup *)

Lemma setup_calls_when_initialized bw g b :
  b_initialize bw = Returned tt ->
  boot_calls (snd (setup_bot_handlers bw g b))
  = boot_calls b ++ [BInitialize; BSetWebhook (webhook_url g)].
Proof.
  unfold setup_bot_handlers. intros ->.
  destruct (b_set_webhook bw (webhook_url g)); simpl;
    rewrite <- app_assoc; reflexivity.
Qed.

(** X15.  Setup adds the two handlers, the [/start] command first and the
    handler of text that is no command second, before it calls anything:
    they are registered also when a call fails.  When [initialize] raises,
    the exception leaves the setup and the webhook is not registered; when
    it returns, the next call registers the webhook URL. *)
Theorem setup_registers_handlers_then_webhook bw g b :
  handlers (snd (setup_bot_handlers bw g b))
  = handlers b ++
    [CommandHandler "start" cb_start;
     MessageHandler (FAnd TEXT (FNot COMMAND)) cb_generate_image_replicate] /\
  (forall e,
      b_initialize bw = Raised e ->
      fst (setup_bot_handlers bw g b) = Raised e /\
      boot_calls (snd (setup_bot_handlers bw g b)) = boot_calls b ++ [BInitialize]) /\
  (b_initialize bw = Returned tt ->
   boot_calls (snd (setup_bot_handlers bw g b))
   = boot_calls b ++ [BInitialize; BSetWebhook (webhook_url g)]).
Proof.
  unfold setup_bot_handlers. split; [| split].
  - destruct (b_initialize bw); [| simpl; rewrite <- app_assoc; reflexivity].
    destruct (b_set_webhook bw (webhook_url g)); simpl;
      rewrite <- app_assoc; reflexivity.
  - intros e ->. split; reflexivity.
  - apply setup_calls_when_initialized.
Qed.

Lemma setup_registers_handlers_then_webhook_witness :
  fst (setup_bot_handlers boot_offline (load_globals ∅) fresh_boot)
  = Raised (OtherException "telegram.error.NetworkError") /\
  boot_calls (snd (setup_bot_handlers boot_offline (load_globals ∅) fresh_boot))
  = [BInitialize].
Proof.
  apply (proj1 (proj2 (setup_registers_handlers_then_webhook boot_offline
                         (load_globals ∅) fresh_boot))).
  reflexivity.
Defined.

(** X16.  The hostname is rendered into the webhook URL as it is.  When the
    environment has no RENDER_EXTERNAL_HOSTNAME the setup does not stop: it
    registers the URL https://None/webhook; with a hostname [h] it registers
    https://h/webhook. *)
Theorem webhook_url_from_environment bw env b :
  b_initialize bw = Returned tt ->
  (env !! "RENDER_EXTERNAL_HOSTNAME" = None ->
   boot_calls (snd (setup_bot_handlers bw (load_globals env) b))
   = boot_calls b ++ [BInitialize; BSetWebhook "https://None/webhook"]) /\
  (forall h,
      env !! "RENDER_EXTERNAL_HOSTNAME" = Some h ->
      boot_calls (snd (setup_bot_handlers bw (load_globals env) b))
      = boot_calls b ++ [BInitialize; BSetWebhook ("https://" +:+ h +:+ "/webhook")]).
Proof.
  intros Hinit.
  pose proof (setup_calls_when_initialized bw (load_globals env) b Hinit) as Hcalls.
  split.
  - intros Henv. rewrite Hcalls. unfold webhook_url, load_globals.
    cbn [WEBHOOK_HOSTNAME]. rewrite Henv. reflexivity.
  - intros h Henv. rewrite Hcalls. unfold webhook_url, load_globals.
    cbn [WEBHOOK_HOSTNAME]. rewrite Henv. reflexivity.
Qed.

Lemma webhook_url_from_environment_witness :
  boot_calls (snd (setup_bot_handlers boot_world (load_globals ∅) fresh_boot))
  = [BInitialize; BSetWebhook "https://None/webhook"].
Proof.
  apply (proj1 (webhook_url_from_environment boot_world ∅ fresh_boot eq_refl)).
  reflexivity.
Defined.

Lemma main_token_checks_only_log bw g env b :
  exists b',
    handlers b' = handlers b /\ boot_calls b' = boot_calls b /\
    main bw g env b
    = match setup_bot_handlers bw g b' with
      | (Raised e, b1) => (Raised e, b1)
      | (Returned _, b1) =>
          match listening_port bw env with
          | Raised e => (Raised e, b1)
          | Returned port =>
              (b_app_run bw "0.0.0.0" port,
               boot_call (BAppRun "0.0.0.0" port) (boot_logged (LogStarting port) b1))
          end
      end.
Proof.
  unfold main.
  destruct (String.eqb (TELEGRAM_BOT_TOKEN g) "YOUR_TELEGRAM_BOT_TOKEN");
    destruct (String.eqb (REPLICATE_API_TOKEN g) "YOUR_REPLICATE_API_TOKEN");
    eexists; (split; [| split; [| reflexivity]]); reflexivity.
Qed.

Lemma setup_outcome_and_calls bw g b :
  fst (setup_bot_handlers bw g b)
  = match b_initialize bw with
    | Raised e => Raised e
    | Returned _ =>
        match b_set_webhook bw (webhook_url g) with
        | Raised e => Raised e
        | Returned _ => Returned tt
        end
    end /\
  boot_calls (snd (setup_bot_handlers bw g b))
  = boot_calls b ++
    match b_initialize bw with
    | Raised _ => [BInitialize]
    | Returned _ => [BInitialize; BSetWebhook (webhook_url g)]
    end.
Proof.
  unfold setup_bot_handlers.
  destruct (b_initialize bw); [| split; reflexivity].
  destruct (b_set_webhook bw (webhook_url g)); simpl;
    rewrite <- app_assoc; split; reflexivity.
Qed.

(** X17.  The port is read only after the webhook has been registered.
    When setup has returned: without PORT in the environment the server is
    started on 8080 and [int] is not consulted; with a PORT that [int]
    reads, on that number; with a PORT that [int] refuses, the exception
    leaves the program, the webhook being registered and the server never
    started. *)
Theorem main_listening_port bw g env b :
  b_initialize bw = Returned tt ->
  b_set_webhook bw (webhook_url g) = Returned tt ->
  (env !! "PORT" = None ->
   boot_calls (snd (main bw g env b))
   = boot_calls b ++ [BInitialize; BSetWebhook (webhook_url g); BAppRun "0.0.0.0" 8080]) /\
  (forall v port,
      env !! "PORT" = Some v ->
      b_int bw v = Returned port ->
      boot_calls (snd (main bw g env b))
      = boot_calls b ++ [BInitialize; BSetWebhook (webhook_url g); BAppRun "0.0.0.0" port]) /\
  (forall v e,
      env !! "PORT" = Some v ->
      b_int bw v = Raised e ->
      fst (main bw g env b) = Raised e /\
      boot_calls (snd (main bw g env b))
      = boot_calls b ++ [BInitialize; BSetWebhook (webhook_url g)]).
Proof.
  intros Hinit Hhook.
  destruct (main_token_checks_only_log bw g env b) as (b' & _ & Hcalls & ->).
  destruct (setup_outcome_and_calls bw g b') as [Hfst Hsnd].
  rewrite Hinit, Hhook in Hfst. rewrite Hinit, Hcalls in Hsnd.
  destruct (setup_bot_handlers bw g b') as [[[] | e0] b1]; cbn [fst snd] in *;
    [| discriminate].
  unfold listening_port.
  split; [| split].
  - intros ->. cbn. rewrite Hsnd, <- app_assoc. reflexivity.
  - intros v port -> ->. cbn. rewrite Hsnd, <- app_assoc. reflexivity.
  - intros v e -> ->. split; [reflexivity | exact Hsnd].
Qed.

Lemma main_listening_port_witness :
  fst (main boot_world (load_globals ∅) {[ "PORT" := "http" ]} fresh_boot)
  = Raised (OtherException "ValueError") /\
  boot_calls (snd (main boot_world (load_globals ∅) {[ "PORT" := "http" ]} fresh_boot))
  = [BInitialize; BSetWebhook "https://None/webhook"].
Proof.
  exact (proj2 (proj2 (main_listening_port boot_world (load_globals ∅)
                         {[ "PORT" := "http" ]} fresh_boot eq_refl eq_refl))
           "http" (OtherException "ValueError") eq_refl eq_refl).
Defined.

(** ** Failures of the messaging calls *)






